(** * scripts/create-768-dim-index.py

    A shallow embedding of the index-creation script and the properties
    of its runs.

    The script is a straight line of calls into three things it does not
    own: the process environment ([os.environ]), the Pinecone client
    library, and the standard output the interpreter has set up.  Their
    behaviour is a parameter of the development: a [Service] gives, for
    each client call, the value it returns or the exception it raises,
    and how the remote service changes, and says which text the encoding
    of standard output refuses.  A run of
    the script is the script applied to a [Service] and an initial
    [World]; every external action of a run is appended to the world's
    [log], so that statements about what the script calls, prints, and in
    which order are statements about that list. *)

From stdpp Require Import base option list strings gmap pretty.


(** ** Python values the script handles *)

(** An exception object.  [derives_Exception] records whether its class
    is a subclass of [Exception] (what [except Exception] tests);
    [KeyboardInterrupt], [SystemExit] and [GeneratorExit] derive from
    [BaseException] only.  [exn_str] is [str(e)], which is what
    [f"{e}"] formats. *)
Record PyExn := mkExn {
  derives_Exception : bool;
  exn_str : string
}.

(** The outcome of a call: a value, or a raised exception. *)
Inductive Result (A : Type) :=
| Ok (a : A)
| Raise (e : PyExn).
Arguments Ok {A} a.
Arguments Raise {A} e.

(** One element of what [pc.list_indexes()] yields: the script reads the
    attributes [name] and [dimension] and nothing else. *)
Record IndexModel := mkIndex {
  name : string;
  dimension : Z
}.

(** The client object: the script passes it one thing, the API key. *)
Record Client := mkClient {
  api_key : option string
}.

(** The keyword arguments of [pc.create_index(...)].  [spec] is the
    nested dict literal of the source. *)
Record CreateIndexArgs := mkCreateArgs {
  arg_name : string;
  arg_dimension : Z;
  arg_metric : string;
  arg_spec : gmap string (gmap string string)
}.

(** ** External actions *)

(** What a run does to the outside, each with what came back.  [Print]
    is a call of [print] with that line: it writes the line, or raises
    when standard output cannot encode it. *)
Inductive Event :=
| EnvGet (key : string) (value : option string)
| Construct (key : option string) (r : Result Client)
| ListIndexes (r : Result (list IndexModel))
| CreateIndex (args : CreateIndexArgs) (r : Result ())
| Print (line : string).

(** The client library and the service behind it, over a remote state
    [R]: each call returns or raises, and may change the remote state.
    [svc_stdout_rejects env line] is the message of the
    [UnicodeEncodeError] that writing [line] to standard output raises,
    if it raises one: the interpreter chooses the encoding of standard
    output from the environment (PYTHONIOENCODING, the locale) and the
    platform. *)
Record Service (R : Type) := mkService {
  svc_construct : option string → R → Result Client * R;
  svc_list_indexes : Client → R → Result (list IndexModel) * R;
  svc_create_index : Client → CreateIndexArgs → R → Result () * R;
  svc_stdout_rejects : gmap string string → string → option string
}.
Arguments svc_construct {R} _ _ _.
Arguments svc_list_indexes {R} _ _ _.
Arguments svc_create_index {R} _ _ _ _.
Arguments svc_stdout_rejects {R} _ _ _.

(** The world a run lives in: the process environment and the local file
    system (neither of which the script writes), the remote service, and
    the log of external actions so far, oldest first. *)
Record World (R : Type) := mkWorld {
  environ : gmap string string;
  files : gmap string string;
  remote : R;
  log : list Event
}.
Arguments mkWorld {R} _ _ _ _.
Arguments environ {R} _.
Arguments files {R} _.
Arguments remote {R} _.
Arguments log {R} _.

Definition emit {R} (ev : Event) (w : World R) : World R :=
  mkWorld (environ w) (files w) (remote w) (log w ++ [ev]).

Definition set_remote {R} (r : R) (w : World R) : World R :=
  mkWorld (environ w) (files w) r (log w).

(** ** The monad of script code: state and exceptions *)

Definition M (R A : Type) : Type := World R → Result A * World R.

Definition ret {R A} (a : A) : M R A := λ w, (Ok a, w).

Definition bind {R A B} (m : M R A) (k : A → M R B) : M R B :=
  λ w, match m w with
       | (Ok a, w') => k a w'
       | (Raise e, w') => (Raise e, w')
       end.

Notation "x <- m ;; k" := (bind m (λ x, k))
  (at level 100, m at next level, right associativity).
Notation "m ;;; k" := (bind m (λ _, k))
  (at level 100, right associativity).

(** [try: body except Exception as e: handler e].  An exception whose
    class does not derive from [Exception] is not matched by the clause
    and propagates. *)
Definition try_except_Exception {R A}
    (body : M R A) (handler : PyExn → M R A) : M R A :=
  λ w, match body w with
       | (Ok a, w') => (Ok a, w')
       | (Raise e, w') =>
           if derives_Exception e then handler e w' else (Raise e, w')
       end.

(** [for x in l: body x] *)
Fixpoint for_each {R A} (l : list A) (body : A → M R ()) : M R () :=
  match l with
  | [] => ret ()
  | x :: l' => body x ;;; for_each l' body
  end.

(** ** Primitives *)

(** ** Formatted text *)

(** An f-string, evaluated: the text the script itself writes, and the
    replacement fields, which hold text that came from the client
    library (names, dimensions, messages). *)
Inductive Piece :=
| Text (s : string)
| Field (s : string).

Definition piece_text (p : Piece) : string :=
  match p with Text s | Field s => s end.

(** The string an f-string evaluates to. *)
Fixpoint render (f : list Piece) : string :=
  match f with
  | [] => ""
  | [p] => piece_text p
  | p :: f' => piece_text p +:+ render f'
  end.

(** Strings are UTF-8 bytes: a byte with its top bit set belongs to a
    character outside ASCII. *)
Definition is_ascii_byte (c : Ascii.ascii) : bool :=
  match c with Ascii.Ascii _ _ _ _ _ _ _ top => negb top end.

Fixpoint is_ascii (s : string) : bool :=
  match s with
  | EmptyString => true
  | String c s' => is_ascii_byte c && is_ascii s'
  end.

(** Every encoding of standard output has ASCII.  The text of the
    replacement fields is taken to be within the encoding: the names and
    dimensions of indexes and the messages of the library are ASCII. *)
Definition plain (p : Piece) : bool :=
  match p with
  | Text s => is_ascii s
  | Field _ => true
  end.

(** [UnicodeEncodeError], a subclass of [ValueError] and so of
    [Exception]. *)
Definition UnicodeEncodeError (message : string) : PyExn :=
  mkExn true message.

(** How a [print] ends that standard output rejects with this message,
    or does not reject. *)
Definition print_outcome (rejected : option string) : Result () :=
  match rejected with
  | Some message => Raise (UnicodeEncodeError message)
  | None => Ok ()
  end.

(** [os.environ.get(key)]: the value, or [None]; never raises. *)
Definition environ_get {R} (key : string) : M R (option string) :=
  λ w, let v := environ w !! key in (Ok v, emit (EnvGet key v) w).

Section Script.
Context {R : Type} (svc : Service R).

(** [Pinecone(api_key=key)] *)
Definition Pinecone (key : option string) : M R Client :=
  λ w, let '(r, s) := svc_construct svc key (remote w) in
       (r, emit (Construct key r) (set_remote s w)).

(** [pc.list_indexes()] *)
Definition list_indexes (pc : Client) : M R (list IndexModel) :=
  λ w, let '(r, s) := svc_list_indexes svc pc (remote w) in
       (r, emit (ListIndexes r) (set_remote s w)).

(** [pc.create_index(name=.., dimension=.., metric=.., spec=..)] *)
Definition create_index (pc : Client) (args : CreateIndexArgs) : M R () :=
  λ w, let '(r, s) := svc_create_index svc pc args (remote w) in
       (r, emit (CreateIndex args r) (set_remote s w)).

(** [print(f"...")]: the line is encoded for standard output as a
    whole, and written, or [UnicodeEncodeError] is raised and nothing is
    written.  The call is logged either way. *)
Definition print_f (f : list Piece) : M R () :=
  λ w, let line := render f in
       (if forallb plain f then Ok ()
        else print_outcome (svc_stdout_rejects svc (environ w) line),
        emit (Print line) w).

(** [print(s)] *)
Definition print (s : string) : M R () := print_f [Text s].

(** ** The script *)

Definition index_name : string := "lens-tool-768".

(** The arguments of the one [create_index] call in the source. *)
Definition create_args : CreateIndexArgs :=
  {| arg_name := index_name;
     arg_dimension := 768;
     arg_metric := "cosine";
     arg_spec :=
       {[ "serverless" := {[ "cloud" := "aws"; "region" := "us-east-1" ]} ]} |}.

(** The f-strings of lines 18, 32, 37 and 40. *)
Definition f_exists : list Piece :=
  [Text "Index '"; Field index_name; Text "' already exists!"].

Definition f_created : list Piece :=
  [Text "✅ Created new index '"; Field index_name;
   Text "' with 768 dimensions"].

Definition f_index (index : IndexModel) : list Piece :=
  [Text "- "; Field (name index); Text ": ";
   Field (pretty (dimension index)); Text " dimensions"].

Definition f_error (e : PyExn) : list Piece :=
  [Text "❌ Error: "; Field (exn_str e)].

(** The lines they evaluate to, and the header of line 35. *)
Definition msg_exists : string :=
  "Index '" +:+ index_name +:+ "' already exists!".

Definition msg_created : string :=
  "✅ Created new index '" +:+ index_name +:+ "' with 768 dimensions".

Definition msg_available : string :=
  String (Ascii.ascii_of_nat 10) "Available indexes:".

Definition msg_index (index : IndexModel) : string :=
  "- " +:+ name index +:+ ": " +:+ pretty (dimension index) +:+ " dimensions".

Definition msg_error (e : PyExn) : string :=
  "❌ Error: " +:+ exn_str e.

(** Lines 14 to 37: the body of the [try]. *)
Definition try_body (pc : Client) : M R () :=
  indexes <- list_indexes pc ;;
  let existing_indexes := name <$> indexes in
  (if bool_decide (index_name ∈ existing_indexes) then
     print_f f_exists
   else
     (create_index pc create_args ;;;
      print_f f_created)) ;;;
  print msg_available ;;;
  indexes <- list_indexes pc ;;
  for_each indexes (λ index, print_f (f_index index)).

(** Lines 8 to 40: the module body. *)
Definition script : M R () :=
  key <- environ_get "PINECONE_API_KEY" ;;
  pc <- Pinecone key ;;
  try_except_Exception (try_body pc) (λ e, print_f (f_error e)).

End Script.

(** ** Runs and what is observed of them *)

(** A run starts with nothing logged. *)
Definition start {R} (env fs : gmap string string) (r : R) : World R :=
  mkWorld env fs r [].

Definition run {R} (svc : Service R) (env fs : gmap string string) (r : R)
    : Result () * World R :=
  script svc (start env fs r).

(** How the run ends: [Ok ()] when the module body runs off its end,
    [Raise e] when [e] leaves the script uncaught. *)
Definition outcome {R} (svc : Service R) env fs (r : R) : Result () :=
  (run svc env fs r).1.

(** The external actions of the run, in the order performed. *)
Definition trace {R} (svc : Service R) env fs (r : R) : list Event :=
  log (run svc env fs r).2.

Definition final {R} (svc : Service R) env fs (r : R) : World R :=
  (run svc env fs r).2.

(** The arguments of the [create_index] calls of a trace. *)
Fixpoint create_calls (t : list Event) : list CreateIndexArgs :=
  match t with
  | [] => []
  | CreateIndex args _ :: t' => args :: create_calls t'
  | _ :: t' => create_calls t'
  end.

(** The results of the [list_indexes] calls of a trace. *)
Fixpoint listings (t : list Event) : list (Result (list IndexModel)) :=
  match t with
  | [] => []
  | ListIndexes res :: t' => res :: listings t'
  | _ :: t' => listings t'
  end.

(** The lines a trace passes to [print]. *)
Fixpoint printed (t : list Event) : list string :=
  match t with
  | [] => []
  | Print line :: t' => line :: printed t'
  | _ :: t' => printed t'
  end.




(** The exception a client call raised, if it raised one. *)
Definition raised_by (ev : Event) : option PyExn :=
  match ev with
  | Construct _ (Raise e) | ListIndexes (Raise e) | CreateIndex _ (Raise e) =>
      Some e
  | _ => None
  end.

(** The actions of lines 13 to 40, the [try] statement: the client
    construction and the environment read come before it. *)
Definition in_try (ev : Event) : bool :=
  match ev with
  | ListIndexes _ | CreateIndex _ _ | Print _ => true
  | EnvGet _ _ | Construct _ _ => false
  end.

(** Every index a [list_indexes] call of the trace returned. *)
Fixpoint returned (t : list Event) : list IndexModel :=
  match t with
  | [] => []
  | ListIndexes (Ok l) :: t' => l ++ returned t'
  | _ :: t' => returned t'
  end.

Definition KEY : string := "PINECONE_API_KEY".

Section Shapes.
Context {R : Type} (svc : Service R) (env fs : gmap string string) (r : R).

(** What the [except Exception] clause makes of an exception [e] raised
    in the [try] body: how the script ends, and its call of [print]. *)
Definition handled (e : PyExn) : Result () * list Event :=
  if derives_Exception e
  then (print_outcome (svc_stdout_rejects svc env (msg_error e)),
        [Print (msg_error e)])
  else (Raise e, []).

(** The decision of lines 17 to 32, after a check that returned [l1]
    with the remote in state [s]: the remote state and the actions that
    follow when the decision completes. *)
Inductive Decided (pc : Client) (l1 : list IndexModel) (s : R)
    : R → list Event → Prop :=
| Decided_exists :
    index_name ∈ name <$> l1 →
    Decided pc l1 s s [Print msg_exists]
| Decided_created s' :
    index_name ∉ name <$> l1 →
    svc_create_index svc pc create_args s = (Ok (), s') →
    svc_stdout_rejects svc env msg_created = None →
    Decided pc l1 s s' [CreateIndex create_args (Ok ()); Print msg_created].

(** The runs of the script, by the first call that raises, if any. *)
Inductive Run : Result () → World R → Prop :=
| Run_construct_raises e s1 :
    svc_construct svc (env !! KEY) r = (Raise e, s1) →
    Run (Raise e)
      (mkWorld env fs s1
         [EnvGet KEY (env !! KEY); Construct (env !! KEY) (Raise e)])
| Run_check_raises pc s1 e s2 :
    svc_construct svc (env !! KEY) r = (Ok pc, s1) →
    svc_list_indexes svc pc s1 = (Raise e, s2) →
    Run (handled e).1
      (mkWorld env fs s2
         ([EnvGet KEY (env !! KEY); Construct (env !! KEY) (Ok pc);
           ListIndexes (Raise e)] ++ (handled e).2))
| Run_create_raises pc s1 l1 s2 e s3 :
    svc_construct svc (env !! KEY) r = (Ok pc, s1) →
    svc_list_indexes svc pc s1 = (Ok l1, s2) →
    index_name ∉ name <$> l1 →
    svc_create_index svc pc create_args s2 = (Raise e, s3) →
    Run (handled e).1
      (mkWorld env fs s3
         ([EnvGet KEY (env !! KEY); Construct (env !! KEY) (Ok pc);
           ListIndexes (Ok l1); CreateIndex create_args (Raise e)]
          ++ (handled e).2))
| Run_confirmation_raises pc s1 l1 s2 s3 message :
    svc_construct svc (env !! KEY) r = (Ok pc, s1) →
    svc_list_indexes svc pc s1 = (Ok l1, s2) →
    index_name ∉ name <$> l1 →
    svc_create_index svc pc create_args s2 = (Ok (), s3) →
    svc_stdout_rejects svc env msg_created = Some message →
    Run (handled (UnicodeEncodeError message)).1
      (mkWorld env fs s3
         ([EnvGet KEY (env !! KEY); Construct (env !! KEY) (Ok pc);
           ListIndexes (Ok l1); CreateIndex create_args (Ok ());
           Print msg_created]
          ++ (handled (UnicodeEncodeError message)).2))
| Run_listing_raises pc s1 l1 s2 s3 evs e s4 :
    svc_construct svc (env !! KEY) r = (Ok pc, s1) →
    svc_list_indexes svc pc s1 = (Ok l1, s2) →
    Decided pc l1 s2 s3 evs →
    svc_list_indexes svc pc s3 = (Raise e, s4) →
    Run (handled e).1
      (mkWorld env fs s4
         ([EnvGet KEY (env !! KEY); Construct (env !! KEY) (Ok pc);
           ListIndexes (Ok l1)] ++ evs ++
          [Print msg_available; ListIndexes (Raise e)] ++ (handled e).2))
| Run_completes pc s1 l1 s2 s3 evs l2 s4 :
    svc_construct svc (env !! KEY) r = (Ok pc, s1) →
    svc_list_indexes svc pc s1 = (Ok l1, s2) →
    Decided pc l1 s2 s3 evs →
    svc_list_indexes svc pc s3 = (Ok l2, s4) →
    Run (Ok ())
      (mkWorld env fs s4
         ([EnvGet KEY (env !! KEY); Construct (env !! KEY) (Ok pc);
           ListIndexes (Ok l1)] ++ evs ++
          [Print msg_available; ListIndexes (Ok l2)] ++
          ((λ index, Print (msg_index index)) <$> l2))).

End Shapes.

(** ** A scripted service, for concrete runs *)

Module Mock.

(** The remote side: the table of indexes, and how many client calls
    it has served. *)
Record Remote := mkRemote {
  table : list IndexModel;
  served : nat
}.

(** The [n]-th client call (from 0, the constructor included) raises
    [e] when [faults !! n = Some (Some e)], and succeeds otherwise. *)
Definition answer {A} (faults : list (option PyExn)) (s : Remote)
    (value : A) (table' : list IndexModel) : Result A * Remote :=
  match mjoin (faults !! served s) with
  | Some e => (Raise e, mkRemote (table s) (S (served s)))
  | None => (Ok value, mkRemote table' (S (served s)))
  end.

(** Standard output takes everything, unless the environment sets
    PYTHONIOENCODING to ascii: then text outside ASCII is refused. *)
Definition stdout_rejects (env : gmap string string) (line : string)
    : option string :=
  if bool_decide (env !! "PYTHONIOENCODING" = Some "ascii")
  then Some "'ascii' codec can't encode character"
  else None.

Definition scripted (faults : list (option PyExn)) : Service Remote :=
  {| svc_construct key s := answer faults s (mkClient key) (table s);
     svc_list_indexes pc s := answer faults s (table s) (table s);
     svc_create_index pc args s :=
       answer faults s ()
         (table s ++ [mkIndex (arg_name args) (arg_dimension args)]);
     svc_stdout_rejects := stdout_rejects |}.

Definition healthy : Service Remote := scripted [].

Definition quota_exceeded : PyExn := mkExn true "quota exceeded".
Definition no_api_key : PyExn := mkExn true "no API key".
Definition timed_out : PyExn := mkExn true "timed out".
Definition keyboard_interrupt : PyExn := mkExn false "".

(** An environment whose standard output is ASCII. *)
Definition ascii_stdout : gmap string string :=
  {[ "PYTHONIOENCODING" := "ascii" ]}.

Definition empty : Remote := mkRemote [] 0.
Definition populated : Remote :=
  mkRemote [mkIndex "lens-tool" 512; mkIndex "lens-tool-768" 768] 0.

End Mock.

(** ** Basic facts *)

Lemma for_each_emit {R A} (f : A → string) (l : list A) (w : World R) :
  for_each l (λ x w', (Ok (), emit (Print (f x)) w')) w =
  (Ok (), mkWorld (environ w) (files w) (remote w)
            (log w ++ ((λ x, Print (f x)) <$> l))).
Proof.
  revert w. induction l as [|x l IH]; intros w; simpl.
  - unfold ret. rewrite app_nil_r. by destruct w.
  - unfold bind. rewrite IH. simpl. by rewrite <- app_assoc.
Qed.

(** The final loop: every line of an index is plain, so the loop prints
    them all. *)
Lemma for_each_print {R} (svc : Service R) (l : list IndexModel) (w : World R) :
  for_each l (λ index, print_f svc (f_index index)) w =
  (Ok (), mkWorld (environ w) (files w) (remote w)
            (log w ++ ((λ index, Print (msg_index index)) <$> l))).
Proof. exact (for_each_emit msg_index l w). Qed.

(** What the five calls of [print] do: three of them cannot fail. *)
Ltac print_equations R svc :=
  change (print_f svc f_exists)
    with (λ w : World R, (Ok (), emit (Print msg_exists) w));
  change (print svc msg_available)
    with (λ w : World R, (Ok (), emit (Print msg_available) w));
  change (λ index, print_f svc (f_index index))
    with (λ index (w : World R), (Ok (), emit (Print (msg_index index)) w));
  change (print_f svc f_created)
    with (λ w : World R,
            (print_outcome (svc_stdout_rejects svc (environ w) msg_created),
             emit (Print msg_created) w));
  change (λ e, print_f svc (f_error e))
    with (λ e (w : World R),
            (print_outcome (svc_stdout_rejects svc (environ w) (msg_error e)),
             emit (Print (msg_error e)) w)).

(** Case analysis on the next client call of a run under evaluation. *)
Ltac call_cases H :=
  repeat first
  [ progress (cbn [fst snd log remote environ files emit set_remote app
                   print_outcome derives_Exception UnicodeEncodeError] in H)
  | rewrite for_each_emit in H
  | match type of H with
    | context [svc_construct ?s ?k ?r] =>
        let E := fresh "Hconstruct" in
        destruct (svc_construct s k r) as [[?pc|?e] ?s] eqn:E
    | context [svc_list_indexes ?s ?c ?r] =>
        let E := fresh "Hlist" in
        destruct (svc_list_indexes s c r) as [[?l|?e] ?s] eqn:E
    | context [svc_create_index ?s ?c ?a ?r] =>
        let E := fresh "Hcreate" in
        destruct (svc_create_index s c a r) as [[[]|?e] ?s] eqn:E
    | context [svc_stdout_rejects ?s ?e msg_created] =>
        let E := fresh "Hstdout" in
        destruct (svc_stdout_rejects s e msg_created) as [?message|] eqn:E
    | context [bool_decide (index_name ∈ ?l)] =>
        let E := fresh "Hmember" in
        destruct (bool_decide (index_name ∈ l)) eqn:E;
        [apply bool_decide_eq_true_1 in E | apply bool_decide_eq_false_1 in E]
    end ].

Section Runs.
Context {R : Type} (svc : Service R) (env fs : gmap string string) (r : R).

(** Every run has one of these shapes. *)
Lemma run_spec : Run svc env fs r (outcome svc env fs r) (final svc env fs r).
Proof.
  unfold outcome, final.
  destruct (run svc env fs r) as [o w] eqn:H. revert H.
  unfold run, script, try_body. print_equations R svc.
  unfold try_except_Exception, bind,
    environ_get, Pinecone, list_indexes, create_index, start.
  fold KEY. intros H.
  call_cases H.
  all: try match type of H with
       | context [derives_Exception ?e] =>
           let C := fresh "Hclass" in
           destruct (derives_Exception e) eqn:C
       end.
  all: injection H as <- <-.
  all: cbn [fst snd].
  all: let Hr := fresh in
       first
       [ epose proof (Run_construct_raises svc env fs r _ _ ltac:(eassumption)) as Hr
       | epose proof (Run_check_raises svc env fs r _ _ _ _
           ltac:(eassumption) ltac:(eassumption)) as Hr
       | epose proof (Run_create_raises svc env fs r _ _ _ _ _ _
           ltac:(eassumption) ltac:(eassumption) ltac:(eassumption)
           ltac:(eassumption)) as Hr
       | epose proof (Run_confirmation_raises svc env fs r _ _ _ _ _ _
           ltac:(eassumption) ltac:(eassumption) ltac:(eassumption)
           ltac:(eassumption) ltac:(eassumption)) as Hr
       | epose proof (Run_listing_raises svc env fs r _ _ _ _ _ _ _ _
           ltac:(eassumption) ltac:(eassumption)
           ltac:(first [ by apply Decided_exists
                       | by eapply Decided_created ])
           ltac:(eassumption)) as Hr
       | epose proof (Run_completes svc env fs r _ _ _ _ _ _ _ _
           ltac:(eassumption) ltac:(eassumption)
           ltac:(first [ by apply Decided_exists
                       | by eapply Decided_created ])
           ltac:(eassumption)) as Hr ];
       unfold handled in Hr;
       cbn [derives_Exception UnicodeEncodeError] in Hr;
       try match goal with
           | C : derives_Exception _ = _ |- _ => rewrite C in Hr
           end;
       exact Hr.
Qed.

(** And each shape is the run of the script. *)
Lemma run_complete o w : Run svc env fs r o w → run svc env fs r = (o, w).
Proof.
  intros Hrun.
  unfold run, script, try_body. print_equations R svc.
  unfold try_except_Exception, bind,
    environ_get, Pinecone, list_indexes, create_index, start.
  fold KEY.
  destruct Hrun;
    repeat match goal with
           | D : Decided _ _ _ _ _ _ _ |- _ => destruct D
           end;
    unfold handled;
    repeat first
      [ progress
          (cbn [fst snd log remote environ files emit set_remote app
                print_outcome derives_Exception UnicodeEncodeError])
      | rewrite for_each_emit
      | match goal with
        | H : ?call = _ |- context [?call] => rewrite H
        | H : index_name ∈ ?l |- context [bool_decide (index_name ∈ ?l)] =>
            rewrite (bool_decide_eq_true_2 _ H)
        | H : index_name ∉ ?l |- context [bool_decide (index_name ∈ ?l)] =>
            rewrite (bool_decide_eq_false_2 _ H)
        | |- context [if derives_Exception ?e then _ else _] =>
            destruct (derives_Exception e)
        end ];
    reflexivity.
Qed.

Lemma run_inv :
  ∃ o w, Run svc env fs r o w ∧ outcome svc env fs r = o ∧
         trace svc env fs r = log w ∧ final svc env fs r = w.
Proof. eexists _, _. split; [apply run_spec | done]. Qed.

End Runs.

Lemma create_calls_lines {A} (f : A → string) (l : list A) :
  create_calls ((λ x, Print (f x)) <$> l) = [].
Proof. induction l; simpl; auto. Qed.

Lemma listings_lines {A} (f : A → string) (l : list A) :
  listings ((λ x, Print (f x)) <$> l) = [].
Proof. induction l; simpl; auto. Qed.


Lemma returned_lines {A} (f : A → string) (l : list A) :
  returned ((λ x, Print (f x)) <$> l) = [].
Proof. induction l; simpl; auto. Qed.

(** Destructs the run into its shapes, the [Decided] step included. *)
Ltac run_cases svc env fs r :=
  let o := fresh "o" in let w := fresh "w" in
  let Hrun := fresh "Hrun" in
  let Ho := fresh in let Ht := fresh in let Hw := fresh in
  destruct (run_inv svc env fs r) as (o & w & Hrun & Ho & Ht & Hw);
  rewrite ?Ho, ?Ht, ?Hw in *; clear Ho Ht Hw;
  destruct Hrun;
  repeat match goal with
         | D : Decided _ _ _ _ _ _ _ |- _ => destruct D
         end;
  cbn [log remote environ files fst snd app] in *.

(** Splits on the class of each exception the handler met, and on
    whether standard output took the handler's line. *)
Ltac handled_cases :=
  unfold handled in *;
  cbn [derives_Exception UnicodeEncodeError] in *;
  repeat match goal with
         | |- context [if derives_Exception ?e then _ else _] =>
             let C := fresh "Hclass" in destruct (derives_Exception e) eqn:C
         | H : context [if derives_Exception ?e then _ else _] |- _ =>
             let C := fresh "Hclass" in destruct (derives_Exception e) eqn:C
         | |- context [print_outcome (svc_stdout_rejects ?s ?e ?l)] =>
             let C := fresh "Hhandler" in
             destruct (svc_stdout_rejects s e l) eqn:C
         | H : context [print_outcome (svc_stdout_rejects ?s ?e ?l)] |- _ =>
             let C := fresh "Hhandler" in
             destruct (svc_stdout_rejects s e l) eqn:C
         end;
  cbn [fst snd app print_outcome] in *.

Lemma split_at_cons {A} (x : A) l pre y post :
  x :: l = pre ++ y :: post →
  (pre = [] ∧ x = y ∧ l = post) ∨
  (∃ pre', pre = x :: pre' ∧ l = pre' ++ y :: post).
Proof. destruct pre; intros; simplify_eq/=; eauto. Qed.

Lemma split_at_line {A} (f : A → string) (l : list A) pre ev post :
  (λ x, Print (f x)) <$> l = pre ++ ev :: post →
  (∃ x, ev = Print (f x)) ∧ post = (λ x, Print (f x)) <$> drop (S (length pre)) l.
Proof.
  revert l. induction pre as [|p pre IH]; intros [|x l] Heq; simplify_eq/=.
  - split; [eauto|]. by rewrite drop_0.
  - by apply IH.
Qed.

(** Case analysis on where a concrete trace is cut in two. *)
Ltac split_cases H :=
  repeat match type of H with
         | _ :: _ = _ ++ _ :: _ =>
             apply split_at_cons in H as [(-> & ? & ?) | (? & -> & H)]
         | [] = _ ++ _ :: _ =>
             by destruct (app_cons_not_nil _ _ _ H)
         end;
  simplify_eq.

(** Case analysis on which event of a concrete trace a member is. *)
Ltac member_cases :=
  decompose_list_elem_of; simplify_eq;
  repeat match goal with
         | H : _ ∈ _ <$> _ |- _ =>
             apply list_elem_of_fmap in H as (? & ? & _); simplify_eq
         end;
  cbn [raised_by in_try] in *; simplify_eq.

(** ** C1 and C2: the creation decision *)

Section Decision.
Context {R : Type} (svc : Service R) (env fs : gmap string string) (r : R).


(** C2.  When the first [list_indexes] call returns a list with an index
    named "lens-tool-768", the run makes no [create_index] call, and the
    action right after that first call is the print of
    "Index 'lens-tool-768' already exists!". *)
Theorem skip_when_present (l1 : list IndexModel) :
  head (listings (trace svc env fs r)) = Some (Ok l1) →
  "lens-tool-768" ∈ name <$> l1 →
  create_calls (trace svc env fs r) = [] ∧
  ∃ pre post,
    trace svc env fs r =
      pre ++ ListIndexes (Ok l1)
          :: Print "Index 'lens-tool-768' already exists!" :: post ∧
    listings pre = [].
Proof.
  intros Hfirst Hin.
  run_cases svc env fs r; simpl in Hfirst; simplify_eq;
    try (exfalso; by eauto).
  all: split;
    [ handled_cases; cbn [create_calls];
      rewrite ?create_calls_lines; reflexivity
    | by eexists [_; _], _ ].
Qed.

End Decision.

(** ** C3, C5 and C10: failures *)

Section Failures.
Context {R : Type} (svc : Service R) (env fs : gmap string string) (r : R).

(** The script leaves the environment alone. *)
Lemma final_environ : environ (final svc env fs r) = env.
Proof. by run_cases svc env fs r. Qed.

(** The run from the [try] statement on, when the body raises an
    exception that the handler catches. *)
Lemma run_of_caught (pc : Client) (w w' : World R) (e : PyExn) :
  (key <- environ_get "PINECONE_API_KEY" ;; Pinecone svc key)
    (start env fs r) = (Ok pc, w) →
  try_body svc pc w = (Raise e, w') →
  derives_Exception e = true →
  run svc env fs r =
    (print_outcome (svc_stdout_rejects svc env (msg_error e)),
     emit (Print (msg_error e)) w').
Proof.
  intros Hreach Hbody Hclass.
  assert (run svc env fs r =
          (print_outcome (svc_stdout_rejects svc (environ w') (msg_error e)),
           emit (Print (msg_error e)) w')) as Hrun.
  { revert Hreach. unfold run, script, bind, try_except_Exception.
    destruct (environ_get _ _) as [[key|e0] w0]; [|done].
    destruct (Pinecone svc key w0) as [[pc0|e0] w1]; [|done].
    intros [= -> ->]. by rewrite Hbody, Hclass. }
  pose proof final_environ as Henv. unfold final in Henv.
  rewrite Hrun in Henv. cbn [snd emit environ] in Henv.
  by rewrite Henv in Hrun.
Qed.

(** An exception that leaves the script was raised by a client call, or
    by the handler's own [print], on a standard output that rejects the
    error line. *)
Lemma escaped_was_raised (e : PyExn) :
  outcome svc env fs r = Raise e →
  (∃ ev : Event, ev ∈ trace svc env fs r ∧ raised_by ev = Some e) ∨
  (∃ x message,
     last (trace svc env fs r) = Some (Print ("❌ Error: " +:+ exn_str x)) ∧
     svc_stdout_rejects svc env ("❌ Error: " +:+ exn_str x) = Some message ∧
     e = UnicodeEncodeError message).
Proof.
  intros Hout.
  run_cases svc env fs r; handled_cases; simplify_eq.
  all: first
    [ left; apply Exists_exists;
      by repeat first [ by apply Exists_cons_hd | apply Exists_cons_tl ]
    | right; eexists _, _; split; [reflexivity|]; by split ].
Qed.

(** An exception raised by the client construction, which line 8 makes
    before the [try] statement, leaves the script, and nothing is
    printed. *)
Lemma construction_exception_escapes (key : option string) (e : PyExn) :
  Construct key (Raise e) ∈ trace svc env fs r →
  outcome svc env fs r = Raise e ∧ printed (trace svc env fs r) = [].
Proof.
  intros Hin.
  run_cases svc env fs r; handled_cases.
  all: member_cases; done.
Qed.

(** An exception raised in the [try] body whose class does not derive
    from [Exception] leaves the script, and nothing is printed for it. *)
Lemma other_exception_escapes (ev : Event) (e : PyExn) :
  ev ∈ trace svc env fs r →
  in_try ev = true →
  raised_by ev = Some e →
  derives_Exception e = false →
  outcome svc env fs r = Raise e ∧ last (trace svc env fs r) = Some ev.
Proof.
  intros Hin Htry Hraised Hclass.
  run_cases svc env fs r; handled_cases.
  all: member_cases; done || congruence.
Qed.

(** C3, as amended.  An exception whose class derives from [Exception]
    and which is raised in the [try] body, by a client call or by the
    [print] of line 32, is caught by the one handler, which calls [print]
    with "❌ Error: " followed by the exception's message, the last action
    of the run; when standard output takes that line, the script ends
    without an exception. *)
Theorem exception_in_try_is_caught
    (pc : Client) (w w' : World R) (e : PyExn) :
  (key <- environ_get "PINECONE_API_KEY" ;; Pinecone svc key)
    (start env fs r) = (Ok pc, w) →
  try_body svc pc w = (Raise e, w') →
  derives_Exception e = true →
  last (trace svc env fs r) = Some (Print ("❌ Error: " +:+ exn_str e)) ∧
  (svc_stdout_rejects svc env ("❌ Error: " +:+ exn_str e) = None →
   outcome svc env fs r = Ok ()).
Proof.
  intros Hreach Hbody Hclass.
  unfold outcome, trace.
  rewrite (run_of_caught pc w w' e Hreach Hbody Hclass).
  cbn [fst snd log emit]. unfold msg_error.
  split; [apply last_snoc|]. by intros ->.
Qed.

(** C5.  A run makes at most one [create_index] call, and after a client
    call that raised it makes no further client call: whatever follows
    in the run is printing. *)
Theorem no_second_create_no_retry :
  length (create_calls (trace svc env fs r)) ≤ 1 ∧
  ∀ pre ev post,
    trace svc env fs r = pre ++ ev :: post →
    is_Some (raised_by ev) →
    Forall (λ ev', ∃ line, ev' = Print line) post.
Proof.
  split.
  - run_cases svc env fs r; handled_cases; cbn [create_calls length];
      rewrite ?create_calls_lines; simpl; lia.
  - intros pre ev post Ht [e He].
    run_cases svc env fs r; handled_cases; split_cases Ht;
      cbn [raised_by] in He; simplify_eq.
    all: try (apply split_at_line in Ht as [[? ->] _]; done).
    all: repeat constructor; eauto.
Qed.

(** C10, as amended.  When the run reaches the [try] statement with
    client [pc] in world [w], and the [try] body raises there an exception
    [e] whose class derives from [Exception], leaving the world [w'], then
    the run goes on from [w'] with one more action and no other, the call
    of [print] with "❌ Error: " followed by the message of [e]: the remote
    service is as the body left it.  The run ends without an exception
    when standard output takes that line, and with the
    [UnicodeEncodeError] of that [print] when it does not. *)
Theorem caught_exception_is_reported
    (pc : Client) (w w' : World R) (e : PyExn) :
  (key <- environ_get "PINECONE_API_KEY" ;; Pinecone svc key)
    (start env fs r) = (Ok pc, w) →
  try_body svc pc w = (Raise e, w') →
  derives_Exception e = true →
  trace svc env fs r = log w' ++ [Print ("❌ Error: " +:+ exn_str e)] ∧
  remote (final svc env fs r) = remote w' ∧
  (svc_stdout_rejects svc env ("❌ Error: " +:+ exn_str e) = None →
   outcome svc env fs r = Ok ()) ∧
  (∀ message,
     svc_stdout_rejects svc env ("❌ Error: " +:+ exn_str e) = Some message →
     outcome svc env fs r = Raise (UnicodeEncodeError message)).
Proof.
  intros Hreach Hbody Hclass.
  unfold outcome, trace, final.
  rewrite (run_of_caught pc w w' e Hreach Hbody Hclass).
  cbn [fst snd log remote emit]. unfold msg_error.
  split; [done|]. split; [done|].
  split; [by intros ->|]. by intros message ->.
Qed.

End Failures.

(** ** C4, C6 and C9: order, length and the final listing *)

Section Order.
Context {R : Type} (svc : Service R) (env fs : gmap string string) (r : R).


(** C6.  Whatever the client calls return or raise, the run ends: it
    yields an outcome and a final world, after at most two listings, at
    most one creation, and at most eight actions besides the lines of the
    final loop, of which there is at most one for each index a listing
    returned. *)
Theorem run_terminates :
  ∃ o w,
    run svc env fs r = (o, w) ∧
    length (listings (log w)) ≤ 2 ∧
    length (create_calls (log w)) ≤ 1 ∧
    length (log w) ≤ 8 + length (returned (log w)).
Proof.
  exists (outcome svc env fs r), (final svc env fs r).
  split; [unfold outcome, final; by destruct (run svc env fs r)|].
  run_cases svc env fs r; handled_cases;
    cbn [listings create_calls returned length];
    rewrite ?listings_lines, ?create_calls_lines, ?returned_lines;
    rewrite ?length_app, ?length_fmap; cbn [length]; lia.
Qed.


End Order.

(** ** C7 and C8: what the script touches, and the API key *)

Section Frame.
Context {R : Type} (svc : Service R) (env fs : gmap string string) (r : R).

(** C7.  A run leaves the process environment and the local files as it
    found them, and changes the remote service through the client calls
    only: whatever the three calls preserve holds of the final remote
    state when it held of the initial one.  Besides that, what a run
    leaves is its trace of calls and printed lines: the script yields the
    unit value, and its local variables end with it. *)
Theorem only_calls_and_prints :
  environ (final svc env fs r) = env ∧
  files (final svc env fs r) = fs ∧
  (∀ P : R → Prop,
     (∀ key s, P s → P (svc_construct svc key s).2) →
     (∀ pc s, P s → P (svc_list_indexes svc pc s).2) →
     (∀ pc s, P s → P (svc_create_index svc pc create_args s).2) →
     P r → P (remote (final svc env fs r))).
Proof.
  split; [|split].
  - by run_cases svc env fs r.
  - by run_cases svc env fs r.
  - intros P Hconstruct Hlist Hcreate Hr.
    run_cases svc env fs r;
      repeat match goal with
             | H : _ = (_, ?s') |- _ =>
                 apply (f_equal snd) in H; cbn [snd] in H; subst s'
             end; auto.
Qed.

(** C8.  When PINECONE_API_KEY is not set, the lookup yields [None], the
    client is constructed with [api_key=None], and what the constructor
    answers is the library's doing alone; when it returns a client the
    script goes on to list the indexes.  The script checks nothing about
    the key itself: an exception that leaves it was raised by a client
    call, or by the handler's [print] on a standard output that rejects
    the error line. *)
Theorem missing_key_is_passed_on :
  env !! "PINECONE_API_KEY" = None →
  ∃ constructed rest,
    trace svc env fs r =
      EnvGet "PINECONE_API_KEY" None :: Construct None constructed :: rest ∧
    constructed = (svc_construct svc None r).1 ∧
    (∀ pc, constructed = Ok pc → ∃ first rest', rest = ListIndexes first :: rest') ∧
    (∀ e, outcome svc env fs r = Raise e →
          (∃ ev : Event, ev ∈ trace svc env fs r ∧ raised_by ev = Some e) ∨
          (∃ x message,
             last (trace svc env fs r) =
               Some (Print ("❌ Error: " +:+ exn_str x)) ∧
             svc_stdout_rejects svc env ("❌ Error: " +:+ exn_str x) =
               Some message ∧
             e = UnicodeEncodeError message)).
Proof.
  intros Hunset.
  pose proof escaped_was_raised svc env fs r as Hescaped.
  revert Hescaped.
  run_cases svc env fs r; unfold KEY in *; rewrite Hunset in *; intros Hescaped.
  all: eexists _, _; split; [reflexivity|].
  all: split; [by match goal with H : svc_construct _ _ _ = _ |- _ =>
                    rewrite H end|].
  all: split; [intros ? [= <-]; eauto | done].
Qed.

End Frame.

Import Mock.



(** [skip_when_present] on a service that already holds the index. *)
Lemma skip_when_present_witness :
  create_calls (trace healthy ∅ ∅ populated) = [] ∧
  ∃ pre post,
    trace healthy ∅ ∅ populated =
      pre ++ ListIndexes (Ok (table populated))
          :: Print "Index 'lens-tool-768' already exists!" :: post ∧
    listings pre = [].
Proof.
  apply (skip_when_present healthy ∅ ∅ populated (table populated)).
  - reflexivity.
  - simpl. apply list_elem_of_further, list_elem_of_here.
Defined.

(** [exception_in_try_is_caught] on a service whose first listing times
    out. *)
Lemma exception_in_try_is_caught_witness :
  last (trace (scripted [None; Some timed_out]) ∅ ∅ empty) =
    Some (Print ("❌ Error: " +:+ exn_str timed_out)) ∧
  (svc_stdout_rejects (scripted [None; Some timed_out]) ∅
     ("❌ Error: " +:+ exn_str timed_out) = None →
   outcome (scripted [None; Some timed_out]) ∅ ∅ empty = Ok ()).
Proof.
  apply (exception_in_try_is_caught (scripted [None; Some timed_out])
           ∅ ∅ empty (mkClient None)
           (mkWorld ∅ ∅ (mkRemote [] 1)
              [EnvGet "PINECONE_API_KEY" None;
               Construct None (Ok (mkClient None))])
           (try_body (scripted [None; Some timed_out]) (mkClient None)
              (mkWorld ∅ ∅ (mkRemote [] 1)
                 [EnvGet "PINECONE_API_KEY" None;
                  Construct None (Ok (mkClient None))])).2
           timed_out).
  - reflexivity.
  - reflexivity.
  - reflexivity.
Defined.

(** C3 as stated fails, in three ways.  An exception the client
    constructor raises is raised on line 8, before the [try] statement:
    it leaves the script, and nothing is printed.  An exception of the
    [try] body whose class does not derive from [Exception], here a
    keyboard interrupt during the first listing, passes the handler.  And
    on a standard output that is ASCII the handler's own [print] raises,
    for the character of its first position: the time-out of the first
    listing is caught, and a [UnicodeEncodeError] leaves the script. *)
Lemma exceptions_the_handler_misses :
  (derives_Exception no_api_key = true ∧
   outcome (scripted [Some no_api_key]) ∅ ∅ empty = Raise no_api_key ∧
   trace (scripted [Some no_api_key]) ∅ ∅ empty =
     [EnvGet "PINECONE_API_KEY" None; Construct None (Raise no_api_key)]) ∧
  (outcome (scripted [None; Some keyboard_interrupt]) ∅ ∅ empty =
     Raise keyboard_interrupt ∧
   trace (scripted [None; Some keyboard_interrupt]) ∅ ∅ empty =
     [EnvGet "PINECONE_API_KEY" None;
      Construct None (Ok (mkClient None));
      ListIndexes (Raise keyboard_interrupt)]) ∧
  (derives_Exception timed_out = true ∧
   outcome (scripted [None; Some timed_out]) ascii_stdout ∅ empty =
     Raise (UnicodeEncodeError "'ascii' codec can't encode character") ∧
   trace (scripted [None; Some timed_out]) ascii_stdout ∅ empty =
     [EnvGet "PINECONE_API_KEY" None;
      Construct None (Ok (mkClient None));
      ListIndexes (Raise timed_out);
      Print "❌ Error: timed out"]).
Proof. repeat split; reflexivity. Qed.

(** [missing_key_is_passed_on] on an empty environment. *)
Lemma missing_key_is_passed_on_witness :
  ∃ constructed rest,
    trace healthy ∅ ∅ empty =
      EnvGet "PINECONE_API_KEY" None :: Construct None constructed :: rest ∧
    constructed = (svc_construct healthy None empty).1 ∧
    (∀ pc, constructed = Ok pc → ∃ first rest', rest = ListIndexes first :: rest') ∧
    (∀ e, outcome healthy ∅ ∅ empty = Raise e →
          (∃ ev : Event, ev ∈ trace healthy ∅ ∅ empty ∧ raised_by ev = Some e) ∨
          (∃ x message,
             last (trace healthy ∅ ∅ empty) =
               Some (Print ("❌ Error: " +:+ exn_str x)) ∧
             svc_stdout_rejects healthy ∅ ("❌ Error: " +:+ exn_str x) =
               Some message ∧
             e = UnicodeEncodeError message)).
Proof.
  apply (missing_key_is_passed_on healthy ∅ ∅ empty).
  reflexivity.
Defined.


(** The lines of that run: the final listing prints what the second
    call returned. *)
Example final_listing_lines :
  printed (trace healthy ∅ ∅ populated) =
    ["Index 'lens-tool-768' already exists!";
     String (Ascii.ascii_of_nat 10) "Available indexes:";
     "- lens-tool: 512 dimensions";
     "- lens-tool-768: 768 dimensions"].
Proof. reflexivity. Qed.

(** On an empty service the one line of the final listing is the index
    the script has just created: the listing comes from the second call,
    not from the check. *)
Example listing_after_creation :
  listings (trace healthy ∅ ∅ empty) =
    [Ok []; Ok [mkIndex "lens-tool-768" 768]] ∧
  printed (trace healthy ∅ ∅ empty) =
    ["✅ Created new index 'lens-tool-768' with 768 dimensions";
     String (Ascii.ascii_of_nat 10) "Available indexes:";
     "- lens-tool-768: 768 dimensions"].
Proof. split; reflexivity. Qed.

(** [caught_exception_is_reported] on a service that creates the index
    and then times out on the second listing. *)
Lemma caught_exception_is_reported_witness :
  trace (scripted [None; None; None; Some timed_out]) ∅ ∅ empty =
    log (try_body (scripted [None; None; None; Some timed_out])
           (mkClient None)
           (mkWorld ∅ ∅ (mkRemote [] 1)
              [EnvGet "PINECONE_API_KEY" None;
               Construct None (Ok (mkClient None))])).2
    ++ [Print ("❌ Error: " +:+ exn_str timed_out)] ∧
  remote (final (scripted [None; None; None; Some timed_out]) ∅ ∅ empty) =
    remote (try_body (scripted [None; None; None; Some timed_out])
              (mkClient None)
              (mkWorld ∅ ∅ (mkRemote [] 1)
                 [EnvGet "PINECONE_API_KEY" None;
                  Construct None (Ok (mkClient None))])).2 ∧
  (svc_stdout_rejects (scripted [None; None; None; Some timed_out]) ∅
     ("❌ Error: " +:+ exn_str timed_out) = None →
   outcome (scripted [None; None; None; Some timed_out]) ∅ ∅ empty = Ok ()) ∧
  (∀ message,
     svc_stdout_rejects (scripted [None; None; None; Some timed_out]) ∅
       ("❌ Error: " +:+ exn_str timed_out) = Some message →
     outcome (scripted [None; None; None; Some timed_out]) ∅ ∅ empty =
       Raise (UnicodeEncodeError message)).
Proof.
  apply (caught_exception_is_reported
           (scripted [None; None; None; Some timed_out]) ∅ ∅ empty
           (mkClient None)
           (mkWorld ∅ ∅ (mkRemote [] 1)
              [EnvGet "PINECONE_API_KEY" None;
               Construct None (Ok (mkClient None))])
           (try_body (scripted [None; None; None; Some timed_out])
              (mkClient None)
              (mkWorld ∅ ∅ (mkRemote [] 1)
                 [EnvGet "PINECONE_API_KEY" None;
                  Construct None (Ok (mkClient None))])).2
           timed_out).
  - reflexivity.
  - reflexivity.
  - reflexivity.
Defined.

(** In that run the index the script created is still there at the end,
    and the error is the last line printed. *)
Example created_index_survives_failure :
  table (remote (final (scripted [None; None; None; Some timed_out])
                   ∅ ∅ empty)) =
    [mkIndex "lens-tool-768" 768] ∧
  printed (trace (scripted [None; None; None; Some timed_out]) ∅ ∅ empty) =
    ["✅ Created new index 'lens-tool-768' with 768 dimensions";
     String (Ascii.ascii_of_nat 10) "Available indexes:";
     "❌ Error: timed out"].
Proof. split; reflexivity. Qed.

(** C10 as stated fails, in two ways.  When the third call of the
    service, [create_index], is interrupted from the keyboard, the
    exception is raised in the [try] body, its class does not derive from
    [Exception], [print] is not called, and the exception leaves the
    script.  And on a standard output that is ASCII, with a service that
    answers every call, the [print] of line 32 raises a
    [UnicodeEncodeError] in the [try] body, after the index was created;
    the handler calls [print] with the error line, that call raises in
    turn, and its exception leaves the script. *)
Lemma exceptions_that_are_not_reported :
  (derives_Exception keyboard_interrupt = false ∧
   trace (scripted [None; None; Some keyboard_interrupt]) ∅ ∅ empty =
     [EnvGet "PINECONE_API_KEY" None;
      Construct None (Ok (mkClient None));
      ListIndexes (Ok []);
      CreateIndex create_args (Raise keyboard_interrupt)] ∧
   outcome (scripted [None; None; Some keyboard_interrupt]) ∅ ∅ empty =
     Raise keyboard_interrupt) ∧
  (trace healthy ascii_stdout ∅ empty =
     [EnvGet "PINECONE_API_KEY" None;
      Construct None (Ok (mkClient None));
      ListIndexes (Ok []);
      CreateIndex create_args (Ok ());
      Print "✅ Created new index 'lens-tool-768' with 768 dimensions";
      Print "❌ Error: 'ascii' codec can't encode character"] ∧
   stdout_rejects ascii_stdout
     "✅ Created new index 'lens-tool-768' with 768 dimensions" =
     Some "'ascii' codec can't encode character" ∧
   stdout_rejects ascii_stdout
     "❌ Error: 'ascii' codec can't encode character" =
     Some "'ascii' codec can't encode character" ∧
   outcome healthy ascii_stdout ∅ empty =
     Raise (UnicodeEncodeError "'ascii' codec can't encode character") ∧
   table (remote (final healthy ascii_stdout ∅ empty)) =
     [mkIndex "lens-tool-768" 768]).
Proof. repeat split; reflexivity. Qed.

(** ** Further properties of the runs *)


Section Further.
Context {R : Type} (svc : Service R) (env fs : gmap string string) (r : R).

(** The script never creates unasked: a run that calls [create_index]
    calls it once, with the arguments of the source, and only after a
    first listing that returned and had no index named
    "lens-tool-768". *)
Theorem create_only_when_absent :
  create_calls (trace svc env fs r) ≠ [] →
  create_calls (trace svc env fs r) = [create_args] ∧
  ∃ l1, head (listings (trace svc env fs r)) = Some (Ok l1) ∧
        "lens-tool-768" ∉ name <$> l1.
Proof.
  run_cases svc env fs r; handled_cases; cbn [create_calls listings head];
    rewrite ?create_calls_lines; intros Hcalled; try done.
  all: split; [done|]; eauto.
Qed.

(** The script ends with an uncaught exception [e] in three cases and no
    other: the client construction of line 8, outside the [try], raised
    [e]; a client call of the [try] body raised [e] and the class of [e]
    does not derive from [Exception]; the handler ran, standard output
    rejected its error line, and [e] is the [UnicodeEncodeError] of that
    [print]. *)
Theorem uncaught_exactly_when (e : PyExn) :
  outcome svc env fs r = Raise e ↔
  (∃ ev : Event,
     ev ∈ trace svc env fs r ∧ raised_by ev = Some e ∧
     (in_try ev = false ∨ derives_Exception e = false)) ∨
  (∃ x message,
     last (trace svc env fs r) = Some (Print ("❌ Error: " +:+ exn_str x)) ∧
     svc_stdout_rejects svc env ("❌ Error: " +:+ exn_str x) = Some message ∧
     e = UnicodeEncodeError message).
Proof.
  split.
  - intros Hout.
    run_cases svc env fs r; handled_cases; simplify_eq.
    all: first
      [ left; apply Exists_exists;
        by repeat first
             [ by apply Exists_cons_hd; cbn [raised_by in_try]; auto
             | apply Exists_cons_tl ]
      | right; eexists _, _; split; [reflexivity|]; by split ].
  - intros [(ev & Hin & Hraised & Hwhy) | (x & message & Hlast & Hrej & ->)].
    + run_cases svc env fs r; handled_cases; member_cases;
        destruct Hwhy; done || congruence.
    + change ("❌ Error: " +:+ exn_str x) with (msg_error x) in *.
      run_cases svc env fs r; handled_cases;
        repeat (rewrite last_cons_cons in Hlast);
        rewrite ?last_singleton in Hlast; simplify_eq;
        try congruence.
      all: try (unfold msg_error in *;
                match goal with
                | Hl : exn_str _ = exn_str _ |- _ => rewrite Hl in *
                end; congruence).
      all: try (unfold msg_error in *;
                cbn [exn_str UnicodeEncodeError] in *; congruence).
      all: rewrite last_cons, fmap_last in Hlast;
        destruct (last l2); simplify_eq/=.
Qed.


(** When the existence check itself fails, nothing is created and
    nothing is listed: the failed call is the only listing.  If the
    class of the exception derives from [Exception], the one call of
    [print] is with the error line, and the script ends as that call
    does: without an exception, or with its [UnicodeEncodeError] when
    standard output rejects the line.  If not, [print] is not called and
    the exception leaves the script. *)
Theorem failed_check_creates_nothing (e : PyExn) :
  head (listings (trace svc env fs r)) = Some (Raise e) →
  create_calls (trace svc env fs r) = [] ∧
  listings (trace svc env fs r) = [Raise e] ∧
  printed (trace svc env fs r) =
    (if derives_Exception e then ["❌ Error: " +:+ exn_str e] else []) ∧
  outcome svc env fs r =
    (if derives_Exception e
     then print_outcome
            (svc_stdout_rejects svc env ("❌ Error: " +:+ exn_str e))
     else Raise e).
Proof.
  intros Hfirst.
  run_cases svc env fs r; cbn [listings head app] in Hfirst; simplify_eq.
  unfold handled. by destruct (derives_Exception e).
Qed.

(** When [create_index] raises, the final listing does not take place:
    the check is the only listing and the header is not printed.  If the
    class of the exception derives from [Exception], the one call of
    [print] is with the error line, and the script ends as that call
    does: without an exception, or with its [UnicodeEncodeError] when
    standard output rejects the line.  If not, [print] is not called and
    the exception leaves the script. *)
Theorem failed_creation_skips_listing (args : CreateIndexArgs) (e : PyExn) :
  CreateIndex args (Raise e) ∈ trace svc env fs r →
  length (listings (trace svc env fs r)) = 1 ∧
  printed (trace svc env fs r) =
    (if derives_Exception e then ["❌ Error: " +:+ exn_str e] else []) ∧
  outcome svc env fs r =
    (if derives_Exception e
     then print_outcome
            (svc_stdout_rejects svc env ("❌ Error: " +:+ exn_str e))
     else Raise e).
Proof.
  intros Hin.
  change ("❌ Error: " +:+ exn_str e) with (msg_error e).
  run_cases svc env fs r; handled_cases; member_cases.
  all: done || congruence.
Qed.


(** The environment is read once and one client is constructed, with
    exactly the value of PINECONE_API_KEY, set or not: the run begins
    with these two actions, and every later action is a listing, a
    creation or a print. *)
Theorem key_read_once :
  ∃ constructed rest,
    trace svc env fs r =
      EnvGet "PINECONE_API_KEY" (env !! "PINECONE_API_KEY")
      :: Construct (env !! "PINECONE_API_KEY") constructed :: rest ∧
    Forall (λ ev, in_try ev = true) rest.
Proof.
  run_cases svc env fs r; handled_cases.
  all: eexists _, _; split; [reflexivity|].
  all: repeat first [ apply Forall_nil_2 | apply Forall_cons_2; [done|] ].
  all: apply Forall_fmap, Forall_forall; done.
Qed.

(** When [create_index] returns and standard output rejects the
    confirmation line, the [print] of line 32 raises in the [try] body,
    after the creation: nothing more is asked of the service, the final
    listing does not take place, the handler calls [print] with the
    message of that [UnicodeEncodeError], and the script ends as that
    call does. *)
Theorem confirmation_failure_after_creation (message : string) :
  CreateIndex create_args (Ok ()) ∈ trace svc env fs r →
  svc_stdout_rejects svc env
    "✅ Created new index 'lens-tool-768' with 768 dimensions" =
    Some message →
  (∃ pre,
     trace svc env fs r =
       pre ++ [CreateIndex create_args (Ok ());
               Print "✅ Created new index 'lens-tool-768' with 768 dimensions";
               Print ("❌ Error: " +:+ message)]) ∧
  length (listings (trace svc env fs r)) = 1 ∧
  outcome svc env fs r =
    print_outcome (svc_stdout_rejects svc env ("❌ Error: " +:+ message)).
Proof.
  intros Hin Hstdout.
  change (svc_stdout_rejects svc env msg_created = Some message) in Hstdout.
  run_cases svc env fs r; unfold handled in *;
    cbn [derives_Exception UnicodeEncodeError] in *;
    repeat match goal with
           | H : context [if derives_Exception ?e then _ else _] |- _ =>
               destruct (derives_Exception e)
           end;
    cbn [fst snd app] in *; member_cases; try congruence.
  all: split; [by eexists [_; _; _]|]; done.
Qed.

End Further.

(** ** Running the script again *)

Section Again.
Context {R : Type} (svc : Service R).

(** [holds s]: the remote service in state [s] has an index named
    "lens-tool-768".  The service is taken to list what it holds, to keep
    it, and to hold the index once a creation returned. *)
Context (holds : R → Prop).
Context (construct_keeps :
  ∀ key s, holds s → holds (svc_construct svc key s).2).
Context (list_keeps :
  ∀ pc s, holds s → holds (svc_list_indexes svc pc s).2).
Context (list_shows :
  ∀ pc s l s', svc_list_indexes svc pc s = (Ok l, s') →
               (index_name ∈ name <$> l ↔ holds s)).
Context (create_makes :
  ∀ pc s s', svc_create_index svc pc create_args s = (Ok (), s') →
             holds s').

(** The script is idempotent against such a service.  After a run in
    which no call raised the service holds the index, and a second run,
    whatever its environment and however it ends, makes no
    [create_index] call. *)
Theorem second_run_creates_nothing
    (env fs env2 fs2 : gmap string string) (r : R) :
  (∀ ev : Event, ev ∈ trace svc env fs r → raised_by ev = None) →
  holds (remote (final svc env fs r)) ∧
  create_calls (trace svc env2 fs2 (remote (final svc env fs r))) = [].
Proof.
  intros Hquiet.
  assert (∀ key s res s',
            svc_construct svc key s = (res, s') → holds s → holds s')
    as Hconstruct.
  { intros key s res s' Hcall Hs. apply (f_equal snd) in Hcall.
    cbn [snd] in Hcall. subst s'. by apply construct_keeps. }
  assert (∀ pc s res s',
            svc_list_indexes svc pc s = (res, s') → holds s → holds s')
    as Hlist.
  { intros pc s res s' Hcall Hs. apply (f_equal snd) in Hcall.
    cbn [snd] in Hcall. subst s'. by apply list_keeps. }
  assert (∀ pc s l s',
            svc_list_indexes svc pc s = (Ok l, s') →
            index_name ∈ name <$> l → holds s) as Hseen.
  { intros pc s l s' Hcall Hin. by apply (list_shows _ _ _ _ Hcall). }
  assert (∀ pc s l s',
            svc_list_indexes svc pc s = (Ok l, s') →
            holds s → index_name ∈ name <$> l) as Hshown.
  { intros pc s l s' Hcall Hs. by apply (list_shows _ _ _ _ Hcall). }
  assert (holds (remote (final svc env fs r))) as Hheld.
  { apply Forall_forall in Hquiet. revert Hquiet.
    run_cases svc env fs r; handled_cases; intros Hquiet;
      repeat (apply Forall_cons in Hquiet as [? Hquiet]);
      cbn [raised_by] in *; simplify_eq; eauto 6. }
  split; [done|].
  revert Hheld. generalize (remote (final svc env fs r)). intros r2 Hheld.
  run_cases svc env2 fs2 r2; handled_cases; cbn [create_calls];
    rewrite ?create_calls_lines; try done.
  all: exfalso;
    match goal with
    | Hn : index_name ∉ name <$> _ |- _ => apply Hn; eauto
    end.
Qed.

End Again.

(** ** The further properties on concrete runs *)

(** [create_only_when_absent] on an empty service. *)
Lemma create_only_when_absent_witness :
  create_calls (trace healthy ∅ ∅ empty) = [create_args] ∧
  ∃ l1, head (listings (trace healthy ∅ ∅ empty)) = Some (Ok l1) ∧
        "lens-tool-768" ∉ name <$> l1.
Proof.
  apply (create_only_when_absent healthy ∅ ∅ empty).
  vm_compute. discriminate.
Defined.


(** [failed_check_creates_nothing] on a service whose first listing
    times out. *)
Lemma failed_check_creates_nothing_witness :
  create_calls (trace (scripted [None; Some timed_out]) ∅ ∅ populated) = [] ∧
  listings (trace (scripted [None; Some timed_out]) ∅ ∅ populated) =
    [Raise timed_out] ∧
  printed (trace (scripted [None; Some timed_out]) ∅ ∅ populated) =
    (if derives_Exception timed_out
     then ["❌ Error: " +:+ exn_str timed_out] else []) ∧
  outcome (scripted [None; Some timed_out]) ∅ ∅ populated =
    (if derives_Exception timed_out
     then print_outcome
            (svc_stdout_rejects (scripted [None; Some timed_out]) ∅
               ("❌ Error: " +:+ exn_str timed_out))
     else Raise timed_out).
Proof.
  apply (failed_check_creates_nothing
           (scripted [None; Some timed_out]) ∅ ∅ populated timed_out).
  reflexivity.
Defined.

(** [failed_creation_skips_listing] on an empty service that refuses the
    creation. *)
Lemma failed_creation_skips_listing_witness :
  length (listings
            (trace (scripted [None; None; Some quota_exceeded]) ∅ ∅ empty))
    = 1 ∧
  printed (trace (scripted [None; None; Some quota_exceeded]) ∅ ∅ empty) =
    (if derives_Exception quota_exceeded
     then ["❌ Error: " +:+ exn_str quota_exceeded] else []) ∧
  outcome (scripted [None; None; Some quota_exceeded]) ∅ ∅ empty =
    (if derives_Exception quota_exceeded
     then print_outcome
            (svc_stdout_rejects (scripted [None; None; Some quota_exceeded]) ∅
               ("❌ Error: " +:+ exn_str quota_exceeded))
     else Raise quota_exceeded).
Proof.
  apply (failed_creation_skips_listing
           (scripted [None; None; Some quota_exceeded]) ∅ ∅ empty
           create_args quota_exceeded).
  vm_compute. repeat constructor.
Defined.


(** [second_run_creates_nothing] on the service that answers every call
    and lists its table. *)
Lemma second_run_creates_nothing_witness :
  "lens-tool-768" ∈ name <$> table (remote (final healthy ∅ ∅ empty)) ∧
  create_calls (trace healthy ∅ ∅ (remote (final healthy ∅ ∅ empty))) = [].
Proof.
  apply (second_run_creates_nothing healthy
           (λ s, "lens-tool-768" ∈ name <$> table s)).
  - intros key s Hs. exact Hs.
  - intros pc s Hs. exact Hs.
  - intros pc s l s' Hl. injection Hl as <- _. reflexivity.
  - intros pc s s' Hc. injection Hc as <-. simpl.
    rewrite fmap_app. apply elem_of_app. right. apply list_elem_of_here.
  - apply Forall_forall. vm_compute. repeat constructor.
Defined.

(** [confirmation_failure_after_creation] on an empty service that
    answers every call, with an ASCII standard output. *)
Lemma confirmation_failure_after_creation_witness :
  (∃ pre,
     trace healthy ascii_stdout ∅ empty =
       pre ++ [CreateIndex create_args (Ok ());
               Print "✅ Created new index 'lens-tool-768' with 768 dimensions";
               Print ("❌ Error: " +:+ "'ascii' codec can't encode character")]) ∧
  length (listings (trace healthy ascii_stdout ∅ empty)) = 1 ∧
  outcome healthy ascii_stdout ∅ empty =
    print_outcome
      (svc_stdout_rejects healthy ascii_stdout
         ("❌ Error: " +:+ "'ascii' codec can't encode character")).
Proof.
  apply (confirmation_failure_after_creation healthy ascii_stdout ∅ empty
           "'ascii' codec can't encode character").
  - vm_compute. repeat constructor.
  - reflexivity.
Defined.
